(** * Rent Payment Automation: the browser client

    A shallow embedding of the two client modules of the repository,

      - [frontend/utils/steller.js]: the wallet bridge
        ([connectWallet], [getPublicKey]);
      - the lease manager ([createLease]) and the click handler of the
        connect button,

    as programs of a small free monad over the calls the code makes to its
    host (the browser, the wallet extension and the ledger endpoint), and
    the properties of the traces of these programs. *)

From Stdlib Require Import List String ZArith Bool Lia.
From Stdlib Require Import DecimalString.
Import ListNotations.
Local Open Scope string_scope.
Local Open Scope list_scope.

(** ** JavaScript values *)

(** The values the client handles.  None of the client code computes with
    numbers, so integral numbers are enough; [VObj] is a reference to a host
    object (the extension object, an account, a DOM element, a result).
    [VTypeError] is the TypeError raised on the named property or callee,
    [VError] a plain [Error] with its message. *)
Inductive JsVal : Type :=
| VUndefined
| VNull
| VBool (b : bool)
| VNum (n : Z)
| VStr (s : string)
| VObj (o : nat)
| VTypeError (prop : string)
| VError (msg : string).

(** ToBoolean, as used by [!window.freighterApi]. *)
Definition truthy (v : JsVal) : bool :=
  match v with
  | VUndefined | VNull => false
  | VBool b => b
  | VNum n => negb (Z.eqb n 0)
  | VStr s => negb (String.eqb s "")
  | VObj _ | VTypeError _ | VError _ => true
  end.

(** ToString, as used by the template literal of the click handler.  The
    strings of [undefined], [null], the booleans and the strings are fixed
    by the language, and a safe integer prints as its decimal digits.  A
    larger number prints in a form that depends on its binary expansion,
    and an object prints as its own [toString] method says: for these the
    string is the host's, [display]. *)
Definition toString (display : JsVal -> string) (v : JsVal) : string :=
  match v with
  | VUndefined => "undefined"
  | VNull => "null"
  | VBool true => "true"
  | VBool false => "false"
  | VNum n =>
      if (Z.abs n <=? 9007199254740991)%Z
      then NilZero.string_of_int (Z.to_int n)
      else display v
  | VStr s => s
  | VObj _ | VTypeError _ | VError _ => display v
  end.

(** The result of a synchronous library call. *)
Inductive Completion (A : Type) : Type :=
| Normal (a : A)
| Abrupt (e : JsVal).
Arguments Normal {A} a.
Arguments Abrupt {A} e.

(** ** The transaction library, as the client uses it *)

Module Networks.
(** [Networks.TESTNET] *)
Definition TESTNET : string := "Test SDF Network ; September 2015".
End Networks.

(** An operation of a transaction: the invocation of a method of a
    contract. *)
Record Operation : Type := mkOperation {
  op_contract : string;
  op_method : string;
  op_args : list JsVal
}.

Record Transaction : Type := mkTransaction {
  tx_source : JsVal;
  tx_fee : string;
  tx_networkPassphrase : string;
  tx_operations : list Operation;
  tx_timeout : option Z;
  tx_signatures : list JsVal
}.

Module Contract.
(** [Contract.call(contract, method, args)].  In the library [Contract] is
    a class and [call] is a method of its instances.  Looked up on the
    class itself, [call] is the method every function has: it runs the
    class constructor as a plain function, with [contract] as [this], and a
    class constructor refuses that with a TypeError, whatever the
    arguments.  No operation is made. *)
Definition call (contract method : string) (args : list JsVal)
  : Completion Operation :=
  Abrupt (VTypeError "Contract.call").
End Contract.

Module TransactionBuilder.
(** The options object of the constructor. *)
Record Options : Type := mkOptions {
  fee : string;
  networkPassphrase : string
}.

Record t : Type := mkBuilder {
  source : JsVal;
  options : Options;
  operations : list Operation;
  timeout : option Z
}.

(** [new TransactionBuilder(account, opts)]: the constructor insists on a
    source account. *)
Definition new (account : JsVal) (opts : Options) : Completion t :=
  if truthy account
  then Normal (mkBuilder account opts [] None)
  else Abrupt (VError "must specify source account for the transaction").

(** [.addOperation(op)]: operations are kept in the order they are added. *)
Definition addOperation (op : Operation) (b : t) : t :=
  mkBuilder (source b) (options b) (operations b ++ [op]) (timeout b).

(** [.setTimeout(seconds)] *)
Definition setTimeout (seconds : Z) (b : t) : t :=
  mkBuilder (source b) (options b) (operations b) (Some seconds).

(** [.build()]: an unsigned transaction. *)
Definition build (b : t) : Transaction :=
  mkTransaction (source b) (fee (options b)) (networkPassphrase (options b))
                (operations b) (timeout b) [].
End TransactionBuilder.

(** ** The host *)

(** Calls that return nothing and cannot fail. *)
Inductive Effect : Type :=
| Alert (msg : JsVal)
| ConsoleLog (args : list JsVal)
| SetTextContent (element : nat) (text : string).

(** Calls whose answer the code uses.  The wallet calls carry the extension
    object they were made on, the server calls the endpoint.
    [ServerSubmitTransaction] is the request a submission to the endpoint
    would be. *)
Inductive Request : Type :=
| WalletEnable (api : nat)
| WalletGetPublicKey (api : nat)
| WalletSignTransaction (api : nat) (xdr : JsVal) (network : string)
| ServerGetAccount (endpoint : string) (pubKey : JsVal)
| ServerSubmitTransaction (endpoint : string) (tx : Transaction)
| GetElementById (id : string).

(** How the promise of a request settles, if it does. *)
Inductive Settled : Type :=
| Fulfilled (v : JsVal)
| Rejected (e : JsVal)
| Pending.

(** Everything outside the repository: the state of the page and of the
    services behind it, the global [window.freighterApi], the answers to the
    requests, the strings of the values the language leaves to the engine
    and the objects, and the XDR codec of the transaction library. *)
Record Host : Type := mkHost {
  World : Type;
  freighterApi : World -> JsVal;
  respond : Request -> World -> Settled * World;
  display : JsVal -> string;
  toXDR : Transaction -> string;
  fromXDR : JsVal -> string -> Completion Transaction
}.
Existing Class Host.

(** ** Programs *)

Inductive Prog (A : Type) : Type :=
| Ret (a : A)
| Throw (e : JsVal)
| Global (k : JsVal -> Prog A)
| Perform (e : Effect) (k : Prog A)
| Ask (r : Request) (k : JsVal -> Prog A).
Arguments Ret {A} a.
Arguments Throw {A} e.
Arguments Global {A} k.
Arguments Perform {A} e k.
Arguments Ask {A} r k.

Fixpoint bind {A B : Type} (p : Prog A) (f : A -> Prog B) : Prog B :=
  match p with
  | Ret a => f a
  | Throw e => Throw e
  | Global k => Global (fun v => bind (k v) f)
  | Perform e k => Perform e (bind k f)
  | Ask r k => Ask r (fun v => bind (k v) f)
  end.

Declare Scope prog_scope.
Delimit Scope prog_scope with prog.
Notation "x <- p ;; q" := (bind p (fun x => q))
  (at level 100, p at next level, right associativity) : prog_scope.
Notation "p ;; q" := (bind p (fun _ => q))
  (at level 100, right associativity) : prog_scope.
Local Open Scope prog_scope.

(** [window.freighterApi] *)
Definition window_freighterApi : Prog JsVal := Global Ret.

(** [await receiver.prop(...)]: reading a property of [undefined] or
    [null], or calling a property a primitive does not have, is a
    TypeError. *)
Definition invoke (receiver : JsVal) (prop : string) (req : nat -> Request)
  : Prog JsVal :=
  match receiver with
  | VObj o => Ask (req o) Ret
  | _ => Throw (VTypeError prop)
  end.

Definition alert (msg : JsVal) : Prog JsVal :=
  Perform (Alert msg) (Ret VUndefined).

Definition console_log (args : list JsVal) : Prog JsVal :=
  Perform (ConsoleLog args) (Ret VUndefined).

(** [element.textContent = text] *)
Definition set_textContent (element : JsVal) (text : string) : Prog JsVal :=
  match element with
  | VObj o => Perform (SetTextContent o text) (Ret VUndefined)
  | _ => Throw (VTypeError "textContent")
  end.

(** A library call that may throw. *)
Definition lift {A : Type} (c : Completion A) : Prog A :=
  match c with
  | Normal a => Ret a
  | Abrupt e => Throw e
  end.

(** ** Running a program *)

Inductive Entry : Type :=
| Did (e : Effect)
| Asked (r : Request) (answer : Settled).

Definition Trace : Type := list Entry.

(** How the promise of an async function settles. *)
Inductive Outcome (A : Type) : Type :=
| Resolves (a : A)
| Rejects (e : JsVal)
| Hangs.
Arguments Resolves {A} a.
Arguments Rejects {A} e.
Arguments Hangs {A}.

Section Run.
Context {H : Host}.

Fixpoint run {A : Type} (p : Prog A) (w : World H)
  : Trace * Outcome A * World H :=
  match p with
  | Ret a => ([], Resolves a, w)
  | Throw e => ([], Rejects e, w)
  | Global k => run (k (freighterApi H w)) w
  | Perform e k =>
      let '(t, o, w') := run k w in (Did e :: t, o, w')
  | Ask r k =>
      match respond H r w with
      | (Fulfilled v, w1) =>
          let '(t, o, w') := run (k v) w1 in
          (Asked r (Fulfilled v) :: t, o, w')
      | (Rejected e, w1) => ([Asked r (Rejected e)], Rejects e, w1)
      | (Pending, w1) => ([Asked r Pending], Hangs, w1)
      end
  end.

Definition trace_of {A : Type} (p : Prog A) (w : World H) : Trace :=
  fst (fst (run p w)).

Definition outcome_of {A : Type} (p : Prog A) (w : World H) : Outcome A :=
  snd (fst (run p w)).

Definition world_after {A : Type} (p : Prog A) (w : World H) : World H :=
  snd (run p w).
End Run.

(** ** frontend/utils/steller.js *)

Definition connectWallet : Prog JsVal :=
  api <- window_freighterApi ;;
  if negb (truthy api) then
    (alert (VStr "Freighter wallet not found!") ;;
     Ret VUndefined)
  else
    api <- window_freighterApi ;;
    invoke api "enable" WalletEnable.

Definition getPublicKey : Prog JsVal :=
  api <- window_freighterApi ;;
  invoke api "getPublicKey" WalletGetPublicKey.

(** ** The lease manager *)

(** [new Server('https://horizon-testnet.stellar.org')] *)
Definition server : string := "https://horizon-testnet.stellar.org".

Definition contractId : string :=
  "CCDP5IJT5AZGLCRNBKYXNQ24E6XQYOWAGB2JQR52OQXE7IIP2HM6PIIV".

(** The expression bound to [tx] in [createLease].  The builder is
    constructed first, then the operation is made, and only then is it
    added, the timeout set and the transaction built. *)
Definition leaseTransaction (account assetId duration price : JsVal)
  : Completion Transaction :=
  match TransactionBuilder.new account
          (TransactionBuilder.mkOptions "100" Networks.TESTNET) with
  | Abrupt e => Abrupt e
  | Normal builder =>
      match Contract.call contractId "create_lease"
              [assetId; duration; price] with
      | Abrupt e => Abrupt e
      | Normal operation =>
          Normal (TransactionBuilder.build
                    (TransactionBuilder.setTimeout 30
                       (TransactionBuilder.addOperation operation builder)))
      end
  end.

(** [server.submitTransaction(envelope)]: the [Server] of the library has
    no method of that name, so the call is a TypeError, raised once the
    argument has been evaluated. *)
Definition server_submitTransaction (envelope : Transaction) : Prog JsVal :=
  Throw (VTypeError "submitTransaction").

Section Client.
Context {H : Host}.

Definition createLease (assetId duration price : JsVal) : Prog JsVal :=
  api <- window_freighterApi ;;
  pubKey <- invoke api "getPublicKey" WalletGetPublicKey ;;
  account <- Ask (ServerGetAccount server pubKey) Ret ;;
  tx <- lift (leaseTransaction account assetId duration price) ;;
  api <- window_freighterApi ;;
  signedTx <- invoke api "signTransaction"
                (fun o => WalletSignTransaction o (VStr (toXDR H tx)) "TESTNET") ;;
  envelope <- lift (fromXDR H signedTx Networks.TESTNET) ;;
  txResult <- server_submitTransaction envelope ;;
  console_log [VStr "Lease created!"; txResult] ;;
  Ret VUndefined.

(** The listener of the click on the connect button. *)
Definition onConnectWalletClick : Prog JsVal :=
  connectWallet ;;
  pubKey <- getPublicKey ;;
  element <- Ask (GetElementById "wallet-address") Ret ;;
  set_textContent element
    (String.append "Connected: " (toString (display H) pubKey)) ;;
  Ret VUndefined.
End Client.

(** ** Reading a trace *)

Definition alerts (t : Trace) : list JsVal :=
  flat_map (fun x => match x with Did (Alert m) => [m] | _ => [] end) t.

(** Everything the user or the console got to see. *)
Definition feedback (t : Trace) : list Effect :=
  flat_map (fun x => match x with Did e => [e] | _ => [] end) t.

Definition enableRequests (t : Trace) : list nat :=
  flat_map (fun x => match x with Asked (WalletEnable o) _ => [o] | _ => [] end) t.

Definition publicKeyRequests (t : Trace) : list nat :=
  flat_map (fun x => match x with Asked (WalletGetPublicKey o) _ => [o] | _ => [] end) t.

(** The public keys accounts were fetched for. *)
Definition accountFetches (t : Trace) : list JsVal :=
  flat_map (fun x => match x with Asked (ServerGetAccount _ k) _ => [k] | _ => [] end) t.

(** The envelopes handed to the wallet, with the network named. *)
Definition signRequests (t : Trace) : list (JsVal * string) :=
  flat_map (fun x => match x with
                     | Asked (WalletSignTransaction _ x n) _ => [(x, n)]
                     | _ => []
                     end) t.

Definition submissions (t : Trace) : list Transaction :=
  flat_map (fun x => match x with
                     | Asked (ServerSubmitTransaction _ tx) _ => [tx]
                     | _ => []
                     end) t.

(** What becomes of an async function when the promise it awaits does not
    fulfil. *)
Definition stopped (s : Settled) : Outcome JsVal :=
  match s with
  | Rejected e => Rejects e
  | _ => Hangs
  end.

Definition unfulfilled (s : Settled) : Prop :=
  match s with
  | Fulfilled _ => False
  | _ => True
  end.

(** ** Scripted hosts *)

(** A host that answers each kind of request from a script; its state is
    the number of requests answered so far, and a fetched account is the
    object numbered by that state when the script says [fresh_accounts]. *)
Record Script : Type := mkScript {
  wallet : JsVal;
  publicKey : Settled;
  fresh_accounts : bool;
  account : Settled;
  signed : Settled;
  decoded : Completion Transaction;
  submitted : Settled
}.

(** A stand-in for the XDR encoding that tells transactions with different
    source accounts apart. *)
Definition toyXDR (tx : Transaction) : string :=
  String.append "AAAAAgAAAAA"
    (match tx_source tx with
     | VObj n => NilZero.string_of_uint (Nat.to_uint n)
     | v => toString (fun _ => "[object Object]") v
     end).

Definition scripted (s : Script) : Host :=
  mkHost nat
    (fun _ => wallet s)
    (fun r n =>
       (match r with
        | WalletEnable _ => Fulfilled VUndefined
        | WalletGetPublicKey _ => publicKey s
        | WalletSignTransaction _ _ _ => signed s
        | ServerGetAccount _ _ =>
            if fresh_accounts s then Fulfilled (VObj (100 + n)) else account s
        | ServerSubmitTransaction _ _ => submitted s
        | GetElementById _ => Fulfilled (VObj 7)
        end, S n))
    (fun _ => "[object Object]")
    toyXDR
    (fun _ _ => decoded s).

Definition signedLease : Transaction :=
  mkTransaction (VObj 2) "100" Networks.TESTNET
    [mkOperation contractId "create_lease" [VStr "asset-42"; VNum 30; VNum 100]]
    (Some 30%Z) [VStr "c2lnbmF0dXJl"].

(** The wallet is installed and every call succeeds. *)
Definition happy : Script :=
  mkScript (VObj 1) (Fulfilled (VStr "GABC")) false (Fulfilled (VObj 2))
           (Fulfilled (VStr "AAAAAgAAAAE=")) (Normal signedLease)
           (Fulfilled (VObj 3)).

(** No wallet extension is installed. *)
Definition noWallet : Script :=
  mkScript VUndefined Pending false Pending Pending
           (Abrupt (VStr "XDR Read Error")) Pending.

(** The user declines the signature request. *)
Definition declining : Script :=
  mkScript (VObj 1) (Fulfilled (VStr "GABC")) false (Fulfilled (VObj 2))
           (Rejected (VStr "User declined access")) (Normal signedLease)
           (Fulfilled (VObj 3)).

(** The ledger endpoint cannot be reached. *)
Definition offline : Script :=
  mkScript (VObj 1) (Fulfilled (VStr "GABC")) false
           (Rejected (VStr "Network Error"))
           (Fulfilled (VStr "AAAAAgAAAAE=")) (Normal signedLease)
           (Rejected (VStr "Network Error")).

(** Every fetch answers a new account object. *)
Definition renewing : Script :=
  mkScript (VObj 1) (Fulfilled (VStr "GABC")) true (Fulfilled (VObj 2))
           (Fulfilled (VStr "AAAAAgAAAAE=")) (Normal signedLease)
           (Fulfilled (VObj 3)).

(** ** The ways a call of [createLease] can go *)

Section LeaseRuns.
Context {H : Host}.
Variables (assetId duration price : JsVal).

Inductive LeaseRun (w : World H) : Trace -> Outcome JsVal -> World H -> Prop :=
| lease_no_wallet :
    (forall o, freighterApi H w <> VObj o) ->
    LeaseRun w [] (Rejects (VTypeError "getPublicKey")) w
| lease_no_key o ans w1 :
    freighterApi H w = VObj o ->
    respond H (WalletGetPublicKey o) w = (ans, w1) ->
    unfulfilled ans ->
    LeaseRun w [Asked (WalletGetPublicKey o) ans] (stopped ans) w1
| lease_no_account o pk w1 ans w2 :
    freighterApi H w = VObj o ->
    respond H (WalletGetPublicKey o) w = (Fulfilled pk, w1) ->
    respond H (ServerGetAccount server pk) w1 = (ans, w2) ->
    unfulfilled ans ->
    LeaseRun w [Asked (WalletGetPublicKey o) (Fulfilled pk);
                Asked (ServerGetAccount server pk) ans]
             (stopped ans) w2
| lease_no_transaction o pk w1 acct w2 e :
    freighterApi H w = VObj o ->
    respond H (WalletGetPublicKey o) w = (Fulfilled pk, w1) ->
    respond H (ServerGetAccount server pk) w1 = (Fulfilled acct, w2) ->
    leaseTransaction acct assetId duration price = Abrupt e ->
    LeaseRun w [Asked (WalletGetPublicKey o) (Fulfilled pk);
                Asked (ServerGetAccount server pk) (Fulfilled acct)]
             (Rejects e) w2.
End LeaseRuns.

(** ** More ways to read a trace, and more hosts *)

(** How an async function that returns what it awaits settles. *)
Definition settles (s : Settled) : Outcome JsVal :=
  match s with
  | Fulfilled v => Resolves v
  | Rejected e => Rejects e
  | Pending => Hangs
  end.

(** The texts written to elements of the page. *)
Definition textWrites (t : Trace) : list (nat * string) :=
  flat_map (fun x => match x with
                     | Did (SetTextContent el text) => [(el, text)]
                     | _ => []
                     end) t.

(** A host with a fixed [window.freighterApi] that answers each request by
    a table. *)
Definition staged (api : JsVal) (answers : Request -> Settled)
  (decode : Completion Transaction) : Host :=
  mkHost nat (fun _ => api) (fun r n => (answers r, S n))
         (fun _ => "[object Object]") toyXDR (fun _ _ => decode).

(** Every request is granted. *)
Definition agreeable (r : Request) : Settled :=
  match r with
  | WalletEnable _ => Fulfilled (VBool true)
  | WalletGetPublicKey _ => Fulfilled (VStr "GABC")
  | WalletSignTransaction _ _ _ => Fulfilled (VStr "AAAAAgAAAAE=")
  | ServerGetAccount _ _ => Fulfilled (VObj 2)
  | ServerSubmitTransaction _ _ => Fulfilled (VObj 3)
  | GetElementById _ => Fulfilled (VObj 7)
  end.

(** The user refuses the connection. *)
Definition refusing (r : Request) : Settled :=
  match r with
  | WalletEnable _ => Rejected (VStr "User declined access")
  | _ => agreeable r
  end.

(** The extension answers the connection with [false]. *)
Definition denying (r : Request) : Settled :=
  match r with
  | WalletEnable _ => Fulfilled (VBool false)
  | _ => agreeable r
  end.

(** The page has no element for the address. *)
Definition bare (r : Request) : Settled :=
  match r with
  | GetElementById _ => Fulfilled VNull
  | _ => agreeable r
  end.

(** The extension never answers the request for the key. *)
Definition unresponsive (r : Request) : Settled :=
  match r with
  | WalletGetPublicKey _ => Pending
  | _ => agreeable r
  end.

(** * Properties *)

(** ** Running programs in general *)

Section RunFacts.
Context {H : Host}.

Lemma run_parts {A : Type} (p : Prog A) (w : World H) :
  run p w = (trace_of p w, outcome_of p w, world_after p w).
Proof.
  unfold trace_of, outcome_of, world_after.
  destruct (run p w) as [[t o] w']. reflexivity.
Qed.

(** A rejected request is the last thing a program does, and the program
    rejects with the very same value: programs have no handler. *)
Lemma rejection_is_final {A : Type} (p : Prog A) :
  forall (w : World H) r e,
    In (Asked r (Rejected e)) (trace_of p w) ->
    outcome_of p w = Rejects e /\
    exists before, trace_of p w = before ++ [Asked r (Rejected e)].
Proof.
  unfold trace_of, outcome_of.
  induction p as [a | e0 | k IH | eff k IH | r0 k IH]; intros w r e; cbn.
  - intros [].
  - intros [].
  - apply IH.
  - specialize (IH w r e).
    destruct (run k w) as [[t o] w'] eqn:E; cbn in *.
    intros [Hd | Hin]; [discriminate |].
    destruct (IH Hin) as [Ho [before Hb]].
    split; [exact Ho |].
    exists (Did eff :: before). rewrite Hb. reflexivity.
  - destruct (respond H r0 w) as [[v | e1 | ] w1] eqn:E.
    + specialize (IH v w1 r e).
      destruct (run (k v) w1) as [[t o] w'] eqn:E'; cbn in *.
      intros [Hd | Hin]; [discriminate |].
      destruct (IH Hin) as [Ho [before Hb]].
      split; [exact Ho |].
      exists (Asked r0 (Fulfilled v) :: before). rewrite Hb. reflexivity.
    + cbn. intros [Hd | []]. injection Hd as -> ->.
      split; [reflexivity |]. exists []. reflexivity.
    + cbn. intros [Hd | []]. discriminate.
Qed.
End RunFacts.

(** ** [createLease] *)

(** No transaction is ever built: the constructor of the builder rejects a
    missing account, and the call on the class [Contract] fails for every
    other. *)
Lemma leaseTransaction_throws (account assetId duration price : JsVal) :
  leaseTransaction account assetId duration price =
    Abrupt (if truthy account
            then VTypeError "Contract.call"
            else VError "must specify source account for the transaction").
Proof.
  unfold leaseTransaction, TransactionBuilder.new.
  destruct (truthy account); reflexivity.
Qed.

Section LeaseFacts.
Context {H : Host}.
Variables (assetId duration price : JsVal).

Local Ltac absent E :=
  let o := fresh "o" in intros o; rewrite E; discriminate.

(** Every call of [createLease] goes one of the four ways. *)
Lemma createLease_runs (w : World H) :
  LeaseRun assetId duration price w
    (trace_of (createLease assetId duration price) w)
    (outcome_of (createLease assetId duration price) w)
    (world_after (createLease assetId duration price) w).
Proof.
  unfold trace_of, outcome_of, world_after, createLease, window_freighterApi.
  cbn [bind run].
  destruct (freighterApi H w) as [ | | b | n | s | o | m | m] eqn:W0; cbn;
    try (apply lease_no_wallet; absent W0).
  destruct (respond H (WalletGetPublicKey o) w) as [[pk | e | ] w1] eqn:R1; cbn;
    try (apply (lease_no_key _ _ _ w o _ w1 W0 R1); exact I).
  destruct (respond H (ServerGetAccount server pk) w1) as [[acct | e | ] w2] eqn:R2;
    cbn; try (apply (lease_no_account _ _ _ w o pk w1 _ w2 W0 R1 R2); exact I).
  pose proof (leaseTransaction_throws acct assetId duration price) as T.
  rewrite T. cbn.
  apply (lease_no_transaction _ _ _ w o pk w1 acct w2 _ W0 R1 R2 T).
Qed.
End LeaseFacts.

(** Case analysis on the way a call went: the trace, the outcome and the
    final world of the call are replaced by those of each constructor of
    [LeaseRun] in turn. *)
Ltac lease_cases a d p w :=
  generalize (createLease_runs a d p w);
  generalize (trace_of (createLease a d p) w)
             (outcome_of (createLease a d p) w)
             (world_after (createLease a d p) w);
  let t := fresh "t" in let o := fresh "out" in let w' := fresh "w'" in
  let R := fresh "R" in
  intros t o w' R; destruct R.

(** Which entry of a listed trace a membership hypothesis is about. *)
Ltac pick Hin :=
  cbn in Hin; repeat (destruct Hin as [Hin | Hin]);
  try discriminate Hin; try contradiction.


(** ** The wallet bridge *)

Section WalletBridge.
Context {H : Host}.

(** Whenever [window.freighterApi] is falsy, [connectWallet] alerts and
    returns nothing, whatever the falsy value is. *)
Lemma connectWallet_falsy (w : World H) :
  truthy (freighterApi H w) = false ->
  run connectWallet w =
    ([Did (Alert (VStr "Freighter wallet not found!"))], Resolves VUndefined, w).
Proof.
  intros F. unfold connectWallet, window_freighterApi. cbn [bind run].
  rewrite F. reflexivity.
Qed.

(** With the extension installed, [connectWallet] settles as [enable()]
    does and alerts nothing. *)
Lemma connectWallet_present (w : World H) (o : nat) :
  freighterApi H w = VObj o ->
  trace_of connectWallet w =
    [Asked (WalletEnable o) (fst (respond H (WalletEnable o) w))].
Proof.
  intros P. unfold trace_of, connectWallet, window_freighterApi.
  cbn [bind run]. rewrite P. cbn. rewrite P. cbn.
  destruct (respond H (WalletEnable o) w) as [[v | e | ] w1]; reflexivity.
Qed.

(** C2: when the wallet extension is absent, [connectWallet] neither
    throws nor rejects: it resolves to [undefined], having alerted exactly
    once and never having called the extension's [enable]. *)
Theorem connectWallet_wallet_absent (w : World H) :
  freighterApi H w = VUndefined ->
  outcome_of connectWallet w = Resolves VUndefined /\
  alerts (trace_of connectWallet w) = [VStr "Freighter wallet not found!"] /\
  List.length (alerts (trace_of connectWallet w)) = 1%nat /\
  enableRequests (trace_of connectWallet w) = [].
Proof.
  intros A. unfold outcome_of, trace_of.
  rewrite connectWallet_falsy by (rewrite A; reflexivity).
  cbn. repeat split.
Qed.

(** C10: [getPublicKey] does not check for the wallet: when the extension
    is absent it rejects with the TypeError of the property access, with
    no call made and nothing reported. *)
Theorem getPublicKey_wallet_absent (w : World H) :
  freighterApi H w = VUndefined ->
  run getPublicKey w = ([], Rejects (VTypeError "getPublicKey"), w) /\
  alerts (trace_of getPublicKey w) = [] /\
  (forall v, outcome_of getPublicKey w <> Resolves v).
Proof.
  intros A. unfold trace_of, outcome_of, getPublicKey, window_freighterApi.
  cbn [bind run]. rewrite A. cbn. repeat split. intros v; discriminate.
Qed.

(** C3: when the wallet extension is absent, [connectWallet] resolves,
    and the click handler never calls the extension's [getPublicKey]: the
    alert is the only thing it does before the wrapper [getPublicKey]
    fails on the absent object. *)
Theorem connect_flow_wallet_absent (w : World H) :
  freighterApi H w = VUndefined ->
  outcome_of connectWallet w = Resolves VUndefined /\
  publicKeyRequests (trace_of onConnectWalletClick w) = [] /\
  trace_of onConnectWalletClick w =
    [Did (Alert (VStr "Freighter wallet not found!"))].
Proof.
  intros A.
  unfold outcome_of, trace_of, onConnectWalletClick, connectWallet,
    getPublicKey, window_freighterApi.
  cbn [bind run]. rewrite A. cbn. rewrite A. repeat split.
Qed.

(** In that scenario the handler itself rejects: the wrapper is called
    after [connectWallet] returned, and the address is never shown. *)
Lemma connect_flow_wallet_absent_rejects (w : World H) :
  freighterApi H w = VUndefined ->
  outcome_of onConnectWalletClick w = Rejects (VTypeError "getPublicKey").
Proof.
  intros A.
  unfold outcome_of, onConnectWalletClick, connectWallet, getPublicKey,
    window_freighterApi.
  cbn [bind run]. rewrite A. cbn. rewrite A. reflexivity.
Qed.
End WalletBridge.

(** ** The lease manager *)

Section LeaseClaims.
Context {H : Host}.

(** C1: on a host that grants every request, [createLease("asset-42", 30,
    100)] asks for the key, fetches the account and then fails with the
    TypeError of [Contract.call]: the operation is never made and no
    transaction is submitted. *)
Theorem createLease_asset_42_submits_nothing :
  let host := staged (VObj 1) agreeable (Normal signedLease) in
  let call := createLease (H := host) (VStr "asset-42") (VNum 30) (VNum 100) in
  run (H := host) call 0%nat =
    ([Asked (WalletGetPublicKey 1) (Fulfilled (VStr "GABC"));
      Asked (ServerGetAccount server (VStr "GABC")) (Fulfilled (VObj 2))],
     Rejects (VTypeError "Contract.call"), 2%nat) /\
  Contract.call contractId "create_lease" [VStr "asset-42"; VNum 30; VNum 100] =
    Abrupt (VTypeError "Contract.call") /\
  submissions (trace_of (H := host) call 0%nat) = [].
Proof.
  cbv zeta. split; [| split]; reflexivity.
Qed.

(** C4: [createLease] builds no transaction at all: for every account and
    every input the expression bound to [tx] throws before the timeout is
    set and the transaction built, so no call hands an envelope to the
    wallet, on any network. *)
Theorem createLease_builds_no_transaction
  (w : World H) (assetId duration price : JsVal) :
  (forall account,
      exists e, leaseTransaction account assetId duration price = Abrupt e) /\
  signRequests (trace_of (createLease assetId duration price) w) = [].
Proof.
  split.
  - intros account. rewrite leaseTransaction_throws. eexists. reflexivity.
  - lease_cases assetId duration price w; reflexivity.
Qed.

(** C5: in the scenario of the specification (wallet installed, user
    agreeing, [createLease("asset-42", 30, 100)]) the call does not
    complete: it fetches the account once and rejects with the TypeError of
    [Contract.call], with no signing request and no submission. *)
Theorem createLease_asset_42_stops_after_fetch :
  let call :=
    createLease (H := scripted happy) (VStr "asset-42") (VNum 30) (VNum 100) in
  outcome_of (H := scripted happy) call 0%nat =
    Rejects (VTypeError "Contract.call") /\
  accountFetches (trace_of (H := scripted happy) call 0%nat) = [VStr "GABC"] /\
  signRequests (trace_of (H := scripted happy) call 0%nat) = [] /\
  submissions (trace_of (H := scripted happy) call 0%nat) = [] /\
  feedback (trace_of (H := scripted happy) call 0%nat) = [].
Proof.
  cbv zeta. repeat split.
Qed.

(** C6: no account is kept from one call to the next.  In a call made
    after an earlier one, once the key is retrieved the account is fetched
    again, for the key retrieved in this very call; the fetch is the next
    and last request of the call, and its answer is what the endpoint
    answers at that moment. *)
Theorem createLease_fetches_fresh_account
  (w : World H) (a1 d1 p1 a2 d2 p2 : JsVal) :
  let w1 := world_after (createLease a1 d1 p1) w in
  let t2 := trace_of (createLease a2 d2 p2) w1 in
  forall api pk,
    In (Asked (WalletGetPublicKey api) (Fulfilled pk)) t2 ->
    t2 = [Asked (WalletGetPublicKey api) (Fulfilled pk);
          Asked (ServerGetAccount server pk)
                (fst (respond H (ServerGetAccount server pk)
                        (snd (respond H (WalletGetPublicKey api) w1))))] /\
    accountFetches t2 = [pk].
Proof.
  intros w1 t2 api pk. subst t2. generalize w1. clear w1 w. intros w.
  lease_cases a2 d2 p2 w; intros Hin; pick Hin;
    match type of Hin with
    | Asked _ _ = Asked _ _ => injection Hin as Ho Hk
    end;
    try (subst; contradiction); subst;
    repeat match goal with
           | E : respond H _ _ = _ |- _ => rewrite E; clear E; cbn [fst snd]
           end;
    split; reflexivity.
Qed.

(** C7: nothing is ever handed to the wallet for signing and nothing is
    ever submitted: every request of a call of [createLease] is the
    request for the public key or the fetch of the account. *)
Theorem createLease_never_signs
  (w : World H) (assetId duration price : JsVal) (r : Request) (answer : Settled) :
  In (Asked r answer) (trace_of (createLease assetId duration price) w) ->
  (exists api, r = WalletGetPublicKey api) \/
  (exists pubKey, r = ServerGetAccount server pubKey).
Proof.
  lease_cases assetId duration price w; intros Hin; pick Hin;
    injection Hin as <- _;
    solve [left; eexists; reflexivity | right; eexists; reflexivity].
Qed.


(** C9: [createLease] handles no error.  Whichever request fails, the
    account fetch, the signing request or the submission among them, the
    call stops there and rejects with the very value the request was
    rejected with, and nothing was alerted, logged or shown. *)
Theorem createLease_failure_propagates
  (w : World H) (assetId duration price : JsVal) (r : Request) (e : JsVal) :
  In (Asked r (Rejected e)) (trace_of (createLease assetId duration price) w) ->
  outcome_of (createLease assetId duration price) w = Rejects e /\
  (exists before,
      trace_of (createLease assetId duration price) w =
        before ++ [Asked r (Rejected e)]) /\
  feedback (trace_of (createLease assetId duration price) w) = [].
Proof.
  intros Hin.
  destruct (rejection_is_final _ w r e Hin) as [Ho Hlast].
  split; [exact Ho | split; [exact Hlast |]].
  clear Ho Hlast. revert Hin.
  lease_cases assetId duration price w; intros Hin; pick Hin; reflexivity.
Qed.

(** The requests that can fail are the two a call makes. *)
Lemma createLease_steps_can_fail
  (w : World H) (assetId duration price : JsVal) (r : Request) (e : JsVal) :
  In (Asked r (Rejected e)) (trace_of (createLease assetId duration price) w) ->
  match r with
  | WalletGetPublicKey _ | ServerGetAccount _ _ => True
  | _ => False
  end.
Proof.
  lease_cases assetId duration price w; intros Hin; pick Hin;
    injection Hin as <- _; exact I.
Qed.
End LeaseClaims.

(** * Scenarios *)

(** The user declines every signature request: the call fails before the
    wallet is asked, as on any other host. *)
Example createLease_declining :
  run (H := scripted declining)
      (createLease (H := scripted declining) (VStr "asset-42") (VNum 30) (VNum 100))
      0%nat =
    ([Asked (WalletGetPublicKey 1) (Fulfilled (VStr "GABC"));
      Asked (ServerGetAccount server (VStr "GABC")) (Fulfilled (VObj 2))],
     Rejects (VTypeError "Contract.call"), 2%nat).
Proof. reflexivity. Qed.

(** Two calls in a row, on a host that answers a new account each time:
    each call fetches its own. *)
Example createLease_twice_two_accounts :
  let first := createLease (H := scripted renewing) (VStr "asset-42") (VNum 30) (VNum 100) in
  let second := createLease (H := scripted renewing) (VStr "asset-43") (VNum 7) (VNum 5) in
  trace_of (H := scripted renewing) first 0%nat =
    [Asked (WalletGetPublicKey 1) (Fulfilled (VStr "GABC"));
     Asked (ServerGetAccount server (VStr "GABC")) (Fulfilled (VObj 101))] /\
  trace_of (H := scripted renewing) second
    (world_after (H := scripted renewing) first 0%nat) =
    [Asked (WalletGetPublicKey 1) (Fulfilled (VStr "GABC"));
     Asked (ServerGetAccount server (VStr "GABC")) (Fulfilled (VObj 103))].
Proof. split; reflexivity. Qed.

(** With the wallet installed, the click handler shows the key. *)
Example click_with_wallet :
  trace_of (H := scripted happy) (onConnectWalletClick (H := scripted happy)) 0%nat =
    [Asked (WalletEnable 1) (Fulfilled VUndefined);
     Asked (WalletGetPublicKey 1) (Fulfilled (VStr "GABC"));
     Asked (GetElementById "wallet-address") (Fulfilled (VObj 7));
     Did (SetTextContent 7 "Connected: GABC")].
Proof. reflexivity. Qed.

(** ** The claims on the scripted hosts *)

Lemma connectWallet_wallet_absent_witness :
  freighterApi (scripted noWallet) 0%nat = VUndefined /\
  outcome_of (H := scripted noWallet) connectWallet 0%nat = Resolves VUndefined /\
  alerts (trace_of (H := scripted noWallet) connectWallet 0%nat) =
    [VStr "Freighter wallet not found!"] /\
  List.length (alerts (trace_of (H := scripted noWallet) connectWallet 0%nat)) = 1%nat /\
  enableRequests (trace_of (H := scripted noWallet) connectWallet 0%nat) = [].
Proof.
  split; [reflexivity |].
  apply (connectWallet_wallet_absent (H := scripted noWallet) 0%nat).
  reflexivity.
Defined.

Lemma getPublicKey_wallet_absent_witness :
  freighterApi (scripted noWallet) 0%nat = VUndefined /\
  run (H := scripted noWallet) getPublicKey 0%nat =
    ([], Rejects (VTypeError "getPublicKey"), 0%nat).
Proof.
  split; [reflexivity |].
  apply (getPublicKey_wallet_absent (H := scripted noWallet) 0%nat).
  reflexivity.
Defined.

Lemma connect_flow_wallet_absent_witness :
  freighterApi (scripted noWallet) 0%nat = VUndefined /\
  outcome_of (H := scripted noWallet) connectWallet 0%nat = Resolves VUndefined /\
  publicKeyRequests (trace_of (H := scripted noWallet)
       (onConnectWalletClick (H := scripted noWallet)) 0%nat) = [].
Proof.
  split; [reflexivity |].
  pose proof (connect_flow_wallet_absent (H := scripted noWallet) 0%nat eq_refl)
    as (Hc & Hk & _).
  split; [exact Hc | exact Hk].
Defined.

Lemma createLease_fetches_fresh_account_witness :
  trace_of (H := scripted renewing)
    (createLease (H := scripted renewing) (VStr "asset-43") (VNum 7) (VNum 5))
    2%nat =
    [Asked (WalletGetPublicKey 1) (Fulfilled (VStr "GABC"));
     Asked (ServerGetAccount server (VStr "GABC")) (Fulfilled (VObj 103))] /\
  accountFetches
    (trace_of (H := scripted renewing)
       (createLease (H := scripted renewing) (VStr "asset-43") (VNum 7) (VNum 5))
       2%nat) = [VStr "GABC"].
Proof.
  apply (createLease_fetches_fresh_account (H := scripted renewing) 0%nat
           (VStr "asset-42") (VNum 30) (VNum 100)
           (VStr "asset-43") (VNum 7) (VNum 5)
           1%nat (VStr "GABC")).
  cbn. left. reflexivity.
Defined.

Lemma createLease_never_signs_witness :
  (exists api, ServerGetAccount server (VStr "GABC") = WalletGetPublicKey api) \/
  (exists pubKey,
      ServerGetAccount server (VStr "GABC") = ServerGetAccount server pubKey).
Proof.
  apply (createLease_never_signs (H := scripted happy) 0%nat
           (VStr "asset-42") (VNum 30) (VNum 100)
           (ServerGetAccount server (VStr "GABC")) (Fulfilled (VObj 2))).
  cbn. right. left. reflexivity.
Defined.


Lemma createLease_failure_propagates_witness :
  outcome_of (H := scripted offline)
    (createLease (H := scripted offline) (VStr "asset-42") (VNum 30) (VNum 100))
    0%nat = Rejects (VStr "Network Error") /\
  (exists before,
      trace_of (H := scripted offline)
        (createLease (H := scripted offline) (VStr "asset-42") (VNum 30) (VNum 100))
        0%nat =
        before ++ [Asked (ServerGetAccount server (VStr "GABC"))
                         (Rejected (VStr "Network Error"))]) /\
  feedback
    (trace_of (H := scripted offline)
       (createLease (H := scripted offline) (VStr "asset-42") (VNum 30) (VNum 100))
       0%nat) = [].
Proof.
  apply (createLease_failure_propagates (H := scripted offline) 0%nat
           (VStr "asset-42") (VNum 30) (VNum 100)
           (ServerGetAccount server (VStr "GABC")) (VStr "Network Error")).
  cbn. right. left. reflexivity.
Defined.

(** * Further properties *)

(** ** Running programs *)

Section MoreRunFacts.
Context {H : Host}.

Lemma trace_of_Global {A : Type} (k : JsVal -> Prog A) (w : World H) :
  trace_of (Global k) w = trace_of (k (freighterApi H w)) w.
Proof. reflexivity. Qed.

(** A request that is never answered is the last thing a program does, and
    the program never settles: programs have no timeout. *)
Lemma pending_is_final {A : Type} (p : Prog A) :
  forall (w : World H) r,
    In (Asked r Pending) (trace_of p w) ->
    outcome_of p w = Hangs /\
    exists before, trace_of p w = before ++ [Asked r Pending].
Proof.
  unfold trace_of, outcome_of.
  induction p as [a | e0 | k IH | eff k IH | r0 k IH]; intros w r; cbn.
  - intros [].
  - intros [].
  - apply IH.
  - specialize (IH w r).
    destruct (run k w) as [[t o] w'] eqn:E; cbn in *.
    intros [Hd | Hin]; [discriminate |].
    destruct (IH Hin) as [Ho [before Hb]].
    split; [exact Ho |].
    exists (Did eff :: before). rewrite Hb. reflexivity.
  - destruct (respond H r0 w) as [[v | e1 | ] w1] eqn:E.
    + specialize (IH v w1 r).
      destruct (run (k v) w1) as [[t o] w'] eqn:E'; cbn in *.
      intros [Hd | Hin]; [discriminate |].
      destruct (IH Hin) as [Ho [before Hb]].
      split; [exact Ho |].
      exists (Asked r0 (Fulfilled v) :: before). rewrite Hb. reflexivity.
    + cbn. intros [Hd | []]. discriminate.
    + cbn. intros [Hd | []]. injection Hd as ->.
      split; [reflexivity |]. exists []. reflexivity.
Qed.
End MoreRunFacts.

(** ** The wallet bridge, with the extension installed or not *)

Section MoreWalletBridge.
Context {H : Host}.

(** X1: with the extension object installed, [connectWallet] makes the one
    call [enable()] and settles exactly as that call does: it resolves to
    the value [enable] gives, rejects with the error [enable] rejects with,
    and stays pending while [enable] does; it alerts nothing. *)
Theorem connectWallet_mirrors_enable (w : World H) (o : nat) :
  freighterApi H w = VObj o ->
  run connectWallet w =
    ([Asked (WalletEnable o) (fst (respond H (WalletEnable o) w))],
     settles (fst (respond H (WalletEnable o) w)),
     snd (respond H (WalletEnable o) w)) /\
  alerts (trace_of connectWallet w) = [].
Proof.
  intros P. unfold trace_of, connectWallet, window_freighterApi.
  cbn [bind run]. rewrite P. cbn. rewrite P. cbn.
  destruct (respond H (WalletEnable o) w) as [[v | e | ] w1]; split; reflexivity.
Qed.

(** X2: [connectWallet] alerts exactly when [window.freighterApi] is falsy
    ([undefined], [null], [false], [0] or the empty string), and then it
    makes no request at all; in no state does it both alert and call
    [enable], and it never does either twice. *)
Theorem connectWallet_alerts_iff_falsy (w : World H) :
  alerts (trace_of connectWallet w) =
    (if truthy (freighterApi H w) then []
     else [VStr "Freighter wallet not found!"]) /\
  (truthy (freighterApi H w) = false ->
   trace_of connectWallet w = [Did (Alert (VStr "Freighter wallet not found!"))]) /\
  (List.length (alerts (trace_of connectWallet w)) +
   List.length (enableRequests (trace_of connectWallet w)) <= 1)%nat.
Proof.
  destruct (truthy (freighterApi H w)) eqn:T.
  - assert (Hrun : trace_of connectWallet w = [] \/
                   exists o ans, trace_of connectWallet w = [Asked (WalletEnable o) ans]).
    { unfold trace_of, connectWallet, window_freighterApi. cbn [bind run].
      rewrite T. cbn.
      destruct (freighterApi H w) as [ | | b | n | s | o | m | m]; cbn; auto.
      right. exists o.
      destruct (respond H (WalletEnable o) w) as [[v | e | ] w1]; eexists; reflexivity. }
    destruct Hrun as [-> | (o & ans & ->)]; cbn;
      (split; [reflexivity | split; [discriminate | lia]]).
  - unfold trace_of. rewrite (connectWallet_falsy w T). cbn.
    split; [reflexivity | split; [reflexivity | lia]].
Qed.

(** X3: with the extension object installed, [getPublicKey] makes the one
    call [getPublicKey()] of the extension and settles exactly as it does,
    whether or not [connectWallet] ran before. *)
Theorem getPublicKey_mirrors_extension (w : World H) (o : nat) :
  freighterApi H w = VObj o ->
  run getPublicKey w =
    ([Asked (WalletGetPublicKey o) (fst (respond H (WalletGetPublicKey o) w))],
     settles (fst (respond H (WalletGetPublicKey o) w)),
     snd (respond H (WalletGetPublicKey o) w)) /\
  enableRequests (trace_of getPublicKey w) = [].
Proof.
  intros P. unfold trace_of, getPublicKey, window_freighterApi.
  cbn [bind run]. rewrite P. cbn.
  destruct (respond H (WalletGetPublicKey o) w) as [[v | e | ] w1]; split; reflexivity.
Qed.
End MoreWalletBridge.

(** ** The click on the connect button *)

(** Case analysis on a run of the click handler: on each value of
    [window.freighterApi] it reads and each answer it gets. *)
Ltac click_cases :=
  unfold trace_of, outcome_of, world_after, onConnectWalletClick,
    connectWallet, getPublicKey, window_freighterApi;
  cbn [bind run];
  repeat (match goal with
          | E : freighterApi ?H ?w = _ |- context [freighterApi ?H ?w] =>
              rewrite E
          | |- context [freighterApi ?H ?w] =>
              destruct (freighterApi H w) as [ | | [ | ] | ? | ? | ? | ? | ? ] eqn:?
          | |- context [respond ?H ?r ?w] =>
              destruct (respond H r w) as [[? | ? | ] ?] eqn:?
          | |- context [Z.eqb ?n 0] => destruct (Z.eqb n 0) eqn:?
          | |- context [String.eqb ?s ""] => destruct (String.eqb s "") eqn:?
          | |- context [set_textContent ?x _] => is_var x; destruct x
          end; cbn).

Section Click.
Context {H : Host}.

(** X4: when [enable()] rejects, the click handler rejects with the same
    error at once: the public key is not requested, the page is not looked
    up and no address is shown. *)
Theorem click_enable_rejected (w : World H) (o : nat) (e : JsVal) :
  In (Asked (WalletEnable o) (Rejected e)) (trace_of onConnectWalletClick w) ->
  trace_of onConnectWalletClick w = [Asked (WalletEnable o) (Rejected e)] /\
  outcome_of onConnectWalletClick w = Rejects e /\
  publicKeyRequests (trace_of onConnectWalletClick w) = [] /\
  textWrites (trace_of onConnectWalletClick w) = [].
Proof.
  click_cases; intros Hin; pick Hin.
  injection Hin as <- <-. repeat split.
Qed.

(** X5: whatever the handler writes to the page is the text
    ["Connected: "] followed by the string form of the public key the
    extension answered in this very click (the key itself when it is a
    string), written once, to the element found under the id
    [wallet-address], after [enable()] was fulfilled. *)
Theorem click_shows_retrieved_key (w : World H) (el : nat) (text : string) :
  In (Did (SetTextContent el text)) (trace_of onConnectWalletClick w) ->
  exists api v api' pk,
    trace_of onConnectWalletClick w =
      [Asked (WalletEnable api) (Fulfilled v);
       Asked (WalletGetPublicKey api') (Fulfilled pk);
       Asked (GetElementById "wallet-address") (Fulfilled (VObj el));
       Did (SetTextContent el text)] /\
    text = String.append "Connected: " (toString (display H) pk) /\
    (forall key, pk = VStr key -> text = String.append "Connected: " key) /\
    outcome_of onConnectWalletClick w = Resolves VUndefined.
Proof.
  click_cases; intros Hin; pick Hin.
  injection Hin as <- <-.
  eexists _, _, _, _. repeat split.
  intros key ->. reflexivity.
Qed.

(** X6: the handler does not look at what [enable()] resolved to: with the
    extension installed, once [enable()] is fulfilled, with whatever value,
    the public key is requested. *)
Theorem click_ignores_enable_result (w w1 : World H) (o o1 : nat) (v : JsVal) :
  freighterApi H w = VObj o ->
  respond H (WalletEnable o) w = (Fulfilled v, w1) ->
  freighterApi H w1 = VObj o1 ->
  publicKeyRequests (trace_of onConnectWalletClick w) = [o1].
Proof.
  intros P E P1.
  unfold trace_of, onConnectWalletClick, connectWallet, getPublicKey,
    window_freighterApi.
  cbn [bind run]. rewrite P. cbn. rewrite P. cbn. rewrite E. cbn.
  rewrite P1. cbn.
  destruct (respond H (WalletGetPublicKey o1) w1) as [[pk | e | ] w2];
    cbn; try reflexivity.
  destruct (respond H (GetElementById "wallet-address") w2) as [[el | e | ] w3];
    cbn; try reflexivity.
  destruct el; reflexivity.
Qed.

(** X7: when the page has no element with the id [wallet-address], the
    handler rejects with the TypeError of the assignment, after it has
    connected and retrieved the key; nothing is written. *)
Theorem click_missing_element (w : World H) (id : string) :
  In (Asked (GetElementById id) (Fulfilled VNull))
     (trace_of onConnectWalletClick w) ->
  outcome_of onConnectWalletClick w = Rejects (VTypeError "textContent") /\
  textWrites (trace_of onConnectWalletClick w) = [] /\
  List.length (enableRequests (trace_of onConnectWalletClick w)) = 1%nat /\
  List.length (publicKeyRequests (trace_of onConnectWalletClick w)) = 1%nat.
Proof.
  click_cases; intros Hin; pick Hin;
    match type of Hin with
    | Asked _ (Fulfilled ?x) = _ => destruct x; try discriminate Hin
    end; cbn; repeat split.
Qed.

(** X8: without an extension object in [window.freighterApi], whatever
    else is there, the handler never resolves, never reaches the
    extension and shows no address. *)
Theorem click_without_wallet (w : World H) :
  (forall o, freighterApi H w <> VObj o) ->
  (forall v, outcome_of onConnectWalletClick w <> Resolves v) /\
  enableRequests (trace_of onConnectWalletClick w) = [] /\
  publicKeyRequests (trace_of onConnectWalletClick w) = [] /\
  textWrites (trace_of onConnectWalletClick w) = [].
Proof.
  click_cases; intros A;
    try (exfalso; eapply A; reflexivity);
    (split; [intros v0; discriminate | repeat split]).
Qed.
End Click.

(** ** More on [createLease] *)

Section MoreLease.
Context {H : Host}.

(** X9: [createLease] does not check for the wallet either: without an
    extension object in [window.freighterApi] it rejects with the TypeError
    of the first property access, before any account is fetched, and it
    reports nothing. *)
Theorem createLease_without_wallet (w : World H) (assetId duration price : JsVal) :
  (forall o, freighterApi H w <> VObj o) ->
  run (createLease assetId duration price) w =
    ([], Rejects (VTypeError "getPublicKey"), w).
Proof.
  intros A. unfold createLease, window_freighterApi. cbn [bind run].
  destruct (freighterApi H w) as [ | | b | n | s | o | m | m] eqn:W0;
    try reflexivity.
  destruct (A o eq_refl).
Qed.

(** X10: [createLease] never resolves and never reports: whatever the
    host answers, the call rejects or stays pending; ['Lease created!'] is
    never logged, and nothing is alerted or written to the page. *)
Theorem createLease_never_resolves
  (w : World H) (assetId duration price : JsVal) :
  (forall v, outcome_of (createLease assetId duration price) w <> Resolves v) /\
  feedback (trace_of (createLease assetId duration price) w) = [].
Proof.
  lease_cases assetId duration price w;
    try match goal with
        | U : unfulfilled ?ans |- _ => destruct ans; [destruct U | |]
        end;
    (split; [intros v0; cbn; discriminate | reflexivity]).
Qed.

(** X12: the arguments are not looked at before the transaction is built:
    the request for the key and the fetch of the account, and their
    answers, are the same whatever [assetId], [duration] and [price] are. *)
Theorem createLease_arguments_unused_before_build
  (w : World H) (a d p a' d' p' : JsVal) :
  firstn 2 (trace_of (createLease a d p) w) =
  firstn 2 (trace_of (createLease a' d' p') w).
Proof.
  unfold createLease, window_freighterApi. cbn [bind].
  rewrite !trace_of_Global.
  destruct (freighterApi H w) as [ | | b | n | s | o | m | m]; cbn [invoke bind];
    reflexivity.
Qed.

(** X13: with the extension installed, the key retrieved and an account
    fetched, [createLease] rejects with the TypeError of [Contract.call]:
    the key request and the account fetch are all it has done, and the
    host is left as the fetch left it. *)
Theorem createLease_rejects_at_contract_call
  (w w1 w2 : World H) (assetId duration price : JsVal)
  (o : nat) (pk acct : JsVal) :
  freighterApi H w = VObj o ->
  respond H (WalletGetPublicKey o) w = (Fulfilled pk, w1) ->
  respond H (ServerGetAccount server pk) w1 = (Fulfilled acct, w2) ->
  truthy acct = true ->
  run (createLease assetId duration price) w =
    ([Asked (WalletGetPublicKey o) (Fulfilled pk);
      Asked (ServerGetAccount server pk) (Fulfilled acct)],
     Rejects (VTypeError "Contract.call"), w2).
Proof.
  intros W0 R1 R2 T.
  unfold createLease, window_freighterApi.
  cbn [bind run]. rewrite W0. cbn. rewrite R1. cbn. rewrite R2. cbn.
  rewrite leaseTransaction_throws, T. reflexivity.
Qed.

(** X14: [createLease] sets no timeout of its own: when one of its
    requests is never answered, the call never settles, that request is
    the last thing it did, and it has given no feedback. *)
Theorem createLease_unanswered_hangs
  (w : World H) (assetId duration price : JsVal) (r : Request) :
  In (Asked r Pending) (trace_of (createLease assetId duration price) w) ->
  outcome_of (createLease assetId duration price) w = Hangs /\
  (exists before,
      trace_of (createLease assetId duration price) w =
        before ++ [Asked r Pending]) /\
  feedback (trace_of (createLease assetId duration price) w) = [].
Proof.
  intros Hin.
  destruct (pending_is_final _ w r Hin) as [Ho Hlast].
  split; [exact Ho | split; [exact Hlast |]].
  clear Ho Hlast. revert Hin.
  lease_cases assetId duration price w; intros Hin; pick Hin; reflexivity.
Qed.

(** X15: [createLease] never connects the wallet and never touches the
    page, and it talks to one endpoint only: every request of a call is a
    key or signing request to the extension, or an account fetch or a
    submission at [server]. *)
Theorem createLease_requests
  (w : World H) (assetId duration price : JsVal) (r : Request) (answer : Settled) :
  In (Asked r answer) (trace_of (createLease assetId duration price) w) ->
  match r with
  | WalletGetPublicKey _ | WalletSignTransaction _ _ _ => True
  | ServerGetAccount endpoint _ | ServerSubmitTransaction endpoint _ =>
      endpoint = server
  | WalletEnable _ | GetElementById _ => False
  end.
Proof.
  lease_cases assetId duration price w; intros Hin; pick Hin;
    injection Hin as <- _; cbn; auto.
Qed.

(** X16: [createLease] never retries: whatever the answers are, a call
    asks for the key at most once, fetches at most one account, asks for
    at most one signature and submits at most once. *)
Theorem createLease_never_retries
  (w : World H) (assetId duration price : JsVal) :
  let t := trace_of (createLease assetId duration price) w in
  (List.length (publicKeyRequests t) <= 1 /\
   List.length (accountFetches t) <= 1 /\
   List.length (signRequests t) <= 1 /\
   List.length (submissions t) <= 1)%nat.
Proof.
  lease_cases assetId duration price w; cbn; lia.
Qed.
End MoreLease.

(** ** The further properties on staged hosts *)

Lemma connectWallet_mirrors_enable_witness :
  run (H := staged (VObj 1) denying (Normal signedLease)) connectWallet 0%nat =
    ([Asked (WalletEnable 1) (Fulfilled (VBool false))],
     Resolves (VBool false), 1%nat) /\
  alerts (trace_of (H := staged (VObj 1) denying (Normal signedLease))
            connectWallet 0%nat) = [].
Proof.
  apply (connectWallet_mirrors_enable
           (H := staged (VObj 1) denying (Normal signedLease)) 0%nat 1%nat).
  reflexivity.
Defined.

Lemma connectWallet_alerts_iff_falsy_witness :
  trace_of (H := staged VNull agreeable (Normal signedLease)) connectWallet 0%nat =
    [Did (Alert (VStr "Freighter wallet not found!"))].
Proof.
  apply (proj1 (proj2 (connectWallet_alerts_iff_falsy
                         (H := staged VNull agreeable (Normal signedLease)) 0%nat))).
  reflexivity.
Defined.

Lemma getPublicKey_mirrors_extension_witness :
  run (H := staged (VObj 1) agreeable (Normal signedLease)) getPublicKey 0%nat =
    ([Asked (WalletGetPublicKey 1) (Fulfilled (VStr "GABC"))],
     Resolves (VStr "GABC"), 1%nat) /\
  enableRequests (trace_of (H := staged (VObj 1) agreeable (Normal signedLease))
                    getPublicKey 0%nat) = [].
Proof.
  apply (getPublicKey_mirrors_extension
           (H := staged (VObj 1) agreeable (Normal signedLease)) 0%nat 1%nat).
  reflexivity.
Defined.

Lemma click_enable_rejected_witness :
  trace_of (H := staged (VObj 1) refusing (Normal signedLease))
    (onConnectWalletClick (H := staged (VObj 1) refusing (Normal signedLease))) 0%nat =
    [Asked (WalletEnable 1) (Rejected (VStr "User declined access"))] /\
  outcome_of (H := staged (VObj 1) refusing (Normal signedLease))
    (onConnectWalletClick (H := staged (VObj 1) refusing (Normal signedLease))) 0%nat = Rejects (VStr "User declined access") /\
  publicKeyRequests
    (trace_of (H := staged (VObj 1) refusing (Normal signedLease))
       (onConnectWalletClick (H := staged (VObj 1) refusing (Normal signedLease))) 0%nat) = [] /\
  textWrites
    (trace_of (H := staged (VObj 1) refusing (Normal signedLease))
       (onConnectWalletClick (H := staged (VObj 1) refusing (Normal signedLease))) 0%nat) = [].
Proof.
  apply (click_enable_rejected
           (H := staged (VObj 1) refusing (Normal signedLease)) 0%nat 1%nat
           (VStr "User declined access")).
  cbn. left. reflexivity.
Defined.

Lemma click_shows_retrieved_key_witness :
  let host := staged (VObj 1) agreeable (Normal signedLease) in
  exists api v api' pk,
    trace_of (H := host) (onConnectWalletClick (H := host)) 0%nat =
      [Asked (WalletEnable api) (Fulfilled v);
       Asked (WalletGetPublicKey api') (Fulfilled pk);
       Asked (GetElementById "wallet-address") (Fulfilled (VObj 7));
       Did (SetTextContent 7 "Connected: GABC")] /\
    "Connected: GABC" = String.append "Connected: " (toString (display host) pk) /\
    (forall key, pk = VStr key ->
                 "Connected: GABC" = String.append "Connected: " key) /\
    outcome_of (H := host) (onConnectWalletClick (H := host)) 0%nat =
      Resolves VUndefined.
Proof.
  apply (click_shows_retrieved_key
           (H := staged (VObj 1) agreeable (Normal signedLease)) 0%nat
           7%nat "Connected: GABC").
  cbn. right. right. right. left. reflexivity.
Defined.

Lemma click_ignores_enable_result_witness :
  publicKeyRequests
    (trace_of (H := staged (VObj 1) denying (Normal signedLease))
       (onConnectWalletClick (H := staged (VObj 1) denying (Normal signedLease))) 0%nat) = [1%nat].
Proof.
  apply (click_ignores_enable_result
           (H := staged (VObj 1) denying (Normal signedLease))
           0%nat 1%nat 1%nat 1%nat (VBool false)); reflexivity.
Defined.

Lemma click_missing_element_witness :
  outcome_of (H := staged (VObj 1) bare (Normal signedLease))
    (onConnectWalletClick (H := staged (VObj 1) bare (Normal signedLease))) 0%nat = Rejects (VTypeError "textContent") /\
  textWrites
    (trace_of (H := staged (VObj 1) bare (Normal signedLease))
       (onConnectWalletClick (H := staged (VObj 1) bare (Normal signedLease))) 0%nat) = [] /\
  List.length
    (enableRequests
       (trace_of (H := staged (VObj 1) bare (Normal signedLease))
          (onConnectWalletClick (H := staged (VObj 1) bare (Normal signedLease))) 0%nat)) = 1%nat /\
  List.length
    (publicKeyRequests
       (trace_of (H := staged (VObj 1) bare (Normal signedLease))
          (onConnectWalletClick (H := staged (VObj 1) bare (Normal signedLease))) 0%nat)) = 1%nat.
Proof.
  apply (click_missing_element
           (H := staged (VObj 1) bare (Normal signedLease)) 0%nat "wallet-address").
  cbn. right. right. left. reflexivity.
Defined.

Lemma click_without_wallet_witness :
  (forall v,
      outcome_of (H := staged VNull agreeable (Normal signedLease))
        (onConnectWalletClick (H := staged VNull agreeable (Normal signedLease))) 0%nat <> Resolves v) /\
  enableRequests
    (trace_of (H := staged VNull agreeable (Normal signedLease))
       (onConnectWalletClick (H := staged VNull agreeable (Normal signedLease))) 0%nat) = [] /\
  publicKeyRequests
    (trace_of (H := staged VNull agreeable (Normal signedLease))
       (onConnectWalletClick (H := staged VNull agreeable (Normal signedLease))) 0%nat) = [] /\
  textWrites
    (trace_of (H := staged VNull agreeable (Normal signedLease))
       (onConnectWalletClick (H := staged VNull agreeable (Normal signedLease))) 0%nat) = [].
Proof.
  apply (click_without_wallet
           (H := staged VNull agreeable (Normal signedLease)) 0%nat).
  intros o. cbn. discriminate.
Defined.

Lemma createLease_without_wallet_witness :
  run (H := staged VNull agreeable (Normal signedLease))
      (createLease (H := staged VNull agreeable (Normal signedLease))
         (VStr "asset-42") (VNum 30) (VNum 100)) 0%nat =
    ([], Rejects (VTypeError "getPublicKey"), 0%nat).
Proof.
  apply (createLease_without_wallet
           (H := staged VNull agreeable (Normal signedLease)) 0%nat).
  intros o. cbn. discriminate.
Defined.

Lemma createLease_never_resolves_witness :
  let host := staged (VObj 1) agreeable (Normal signedLease) in
  let call := createLease (H := host) (VStr "asset-42") (VNum 30) (VNum 100) in
  (forall v, outcome_of (H := host) call 0%nat <> Resolves v) /\
  feedback (trace_of (H := host) call 0%nat) = [].
Proof.
  exact (createLease_never_resolves
           (H := staged (VObj 1) agreeable (Normal signedLease)) 0%nat
           (VStr "asset-42") (VNum 30) (VNum 100)).
Defined.

Lemma createLease_rejects_at_contract_call_witness :
  let host := staged (VObj 1) agreeable (Normal signedLease) in
  run (H := host)
      (createLease (H := host) (VStr "asset-42") (VNum 30) (VNum 100)) 0%nat =
    ([Asked (WalletGetPublicKey 1) (Fulfilled (VStr "GABC"));
      Asked (ServerGetAccount server (VStr "GABC")) (Fulfilled (VObj 2))],
     Rejects (VTypeError "Contract.call"), 2%nat).
Proof.
  apply (createLease_rejects_at_contract_call
           (H := staged (VObj 1) agreeable (Normal signedLease))
           0%nat 1%nat 2%nat (VStr "asset-42") (VNum 30) (VNum 100)
           1%nat (VStr "GABC") (VObj 2)); reflexivity.
Defined.

Lemma createLease_unanswered_hangs_witness :
  let host := staged (VObj 1) unresponsive (Normal signedLease) in
  let call := createLease (H := host) (VStr "asset-42") (VNum 30) (VNum 100) in
  outcome_of (H := host) call 0%nat = Hangs /\
  (exists before,
      trace_of (H := host) call 0%nat =
        before ++ [Asked (WalletGetPublicKey 1) Pending]) /\
  feedback (trace_of (H := host) call 0%nat) = [].
Proof.
  apply (createLease_unanswered_hangs
           (H := staged (VObj 1) unresponsive (Normal signedLease))
           0%nat (VStr "asset-42") (VNum 30) (VNum 100)
           (WalletGetPublicKey 1)).
  cbn. left. reflexivity.
Defined.

Lemma createLease_requests_witness :
  "https://horizon-testnet.stellar.org" = server.
Proof.
  apply (createLease_requests
           (H := staged (VObj 1) agreeable (Normal signedLease))
           0%nat (VStr "asset-42") (VNum 30) (VNum 100)
           (ServerGetAccount "https://horizon-testnet.stellar.org" (VStr "GABC"))
           (Fulfilled (VObj 2))).
  cbn. right. left. reflexivity.
Defined.
